(** * update_collection.py: rewriting a Postman collection document

    Shallow embedding of [src/modules/healthcare/utils/update_collection.py].
    JSON values are modelled as [json]; a Python [dict] loaded by
    [json.load] is an association list that keeps insertion order (the
    order [json.dump] writes back).  The in-place mutation of the loaded
    tree is modelled functionally: the tree has no sharing (every node is
    a fresh object built by [json.load]), so returning the updated value
    is the same as mutating it.  A Python exception (TypeError, KeyError,
    AttributeError) is [None]. *)

From Stdlib Require Import String Ascii List ZArith Bool Lia.
Set Warnings "-register-all".
Import ListNotations.
Open Scope string_scope.

(** ** JSON values

    The script never inspects a number, it only carries it from
    [json.load] to [json.dump]; [JNum] holds it as an integer. *)

Inductive json : Type :=
| JNull
| JBool (b : bool)
| JNum (n : Z)
| JStr (s : string)
| JArr (l : list json)
| JObj (kvs : list (string * json)).

(** ** Python string literals

    Rocq string literals have no escapes; [pystr] decodes the two
    placeholders used below: a backquote stands for a double quote and a
    tilde for the newline written [\n] in the Python source. *)

Fixpoint pystr (s : string) : string :=
  match s with
  | EmptyString => EmptyString
  | String c rest =>
      let c' := if Ascii.eqb c "`"%char then ascii_of_nat 34
                else if Ascii.eqb c "~"%char then ascii_of_nat 10
                else c in
      String c' (pystr rest)
  end.

(** Python [sub in s] for two [str]. *)
Fixpoint str_contains (sub s : string) : bool :=
  prefix sub s ||
  match s with
  | EmptyString => false
  | String _ rest => str_contains sub rest
  end.

(** ** Python operations on JSON values *)

(** [key in d] for a dict: key membership (the first binding counts). *)
Fixpoint has_key (k : string) (kvs : list (string * json)) : bool :=
  match kvs with
  | [] => false
  | (k', _) :: rest => String.eqb k' k || has_key k rest
  end.

Fixpoint assoc (k : string) (kvs : list (string * json)) : option json :=
  match kvs with
  | [] => None
  | (k', v) :: rest => if String.eqb k' k then Some v else assoc k rest
  end.

(** [d[k] = v] on a dict: an existing key keeps its position, a new key
    is appended (Python dicts keep insertion order). *)
Fixpoint dict_set (k : string) (v : json) (kvs : list (string * json))
  : list (string * json) :=
  match kvs with
  | [] => [(k, v)]
  | (k', v') :: rest =>
      if String.eqb k' k then (k', v) :: rest else (k', v') :: dict_set k v rest
  end.

(** [x == "k"] for a JSON value [x] and a [str] literal. *)
Definition is_str (k : string) (x : json) : bool :=
  match x with JStr s => String.eqb s k | _ => false end.

(** [k in x] for a [str] [k]: dict keys, list elements, substrings;
    any other type raises TypeError. *)
Definition py_in (k : string) (x : json) : option bool :=
  match x with
  | JObj kvs => Some (has_key k kvs)
  | JArr l => Some (existsb (is_str k) l)
  | JStr s => Some (str_contains k s)
  | _ => None
  end.

(** [x[k]] for a [str] [k]: only a dict with that key succeeds
    (KeyError on a missing key, TypeError on a list or a str). *)
Definition py_getitem (x : json) (k : string) : option json :=
  match x with
  | JObj kvs => assoc k kvs
  | _ => None
  end.

(** [x[k] = v]: only a dict supports it. *)
Definition py_setitem (x : json) (k : string) (v : json) : option json :=
  match x with
  | JObj kvs => Some (JObj (dict_set k v kvs))
  | _ => None
  end.

(** [d.get(k, default)] on a dict. *)
Definition dict_get (kvs : list (string * json)) (k : string) (default : json)
  : json :=
  match assoc k kvs with Some v => v | None => default end.

Notation "'let?' x ':=' m 'in' k" :=
  (match m with Some x => k | None => None end)
  (at level 200, x name, m at level 100, k at level 200).

(** ** The fixed literals of [update_requests] (lines 19-37) *)

Definition raw_register_success : string :=
  pystr "{~  `id`: `test.user`,~  `password`: `TestPass123!`,~  `name`: `Test User`~}".
Definition raw_register_duplicate : string :=
  pystr "{~  `id`: `john.doe`,~  `password`: `password123`,~  `name`: `John Doe Duplicate`~}".
Definition descr_register_duplicate : string :=
  "Try to register with duplicate user ID (john.doe already exists in seed data)".
Definition raw_login_success : string :=
  pystr "{~  `id`: `john.doe`,~  `password`: `password123`~}".
Definition raw_login_invalid : string :=
  pystr "{~  `id`: `john.doe`,~  `password`: `WrongPassword`~}".

(** One branch of the name dispatch:
    [if 'body' in request and 'raw' in request['body']:
       request['body']['raw'] = lit
       (request['description'] = descr)] *)
Definition patch_request (lit : string) (descr : option string) (request : json)
  : option json :=
  let? has_body := py_in "body" request in
  if has_body then
    let? body := py_getitem request "body" in
    let? has_raw := py_in "raw" body in
    if has_raw then
      let? body' := py_setitem body "raw" (JStr lit) in
      let? request' := py_setitem request "body" body' in
      match descr with
      | Some d => py_setitem request' "description" (JStr d)
      | None => Some request'
      end
    else Some request
  else Some request.

(** The [if name == ... elif ...] chain of the request branch. *)
Definition update_request (name request : json) : option json :=
  if is_str "Register User - Success" name then
    patch_request raw_register_success None request
  else if is_str "Register User - Duplicate ID" name then
    patch_request raw_register_duplicate (Some descr_register_duplicate) request
  else if is_str "Login - Success" name then
    patch_request raw_login_success None request
  else if is_str "Login - Invalid Credentials" name then
    patch_request raw_login_invalid None request
  else Some request.

(** Body of the loop for an [item] that is a [str] (a dict key or a
    character when the loop runs over a dict or a str):
    [item['item']] and [item['request']] raise TypeError. *)
Definition str_item_ok (s : string) : bool :=
  negb (str_contains "item" s) && negb (str_contains "request" s).

(** [d[k] = f(d[k])] on the first binding of [k]; [None] (KeyError) when
    [k] is absent or when [f] raises. *)
Fixpoint update_at (k : string) (f : json -> option json) (kvs : list (string * json))
  : option (list (string * json)) :=
  match kvs with
  | [] => None
  | (k', v) :: rest =>
      if String.eqb k' k then
        let? v' := f v in Some ((k', v') :: rest)
      else
        let? rest' := update_at k f rest in Some ((k', v) :: rest')
  end.

(** [for x in l: f(x)], stopping at the first exception. *)
Fixpoint map_option (f : json -> option json) (l : list json) : option (list json) :=
  match l with
  | [] => Some []
  | x :: rest =>
      let? x' := f x in
      let? rest' := map_option f rest in Some (x' :: rest')
  end.

(** [update_requests(items)] and the body of its loop for one [item].
    A dict item with key ["item"] is a folder: [item['item']] is updated
    recursively.  Otherwise a dict with key ["request"] is a request: its
    descriptor is patched according to [item.get('name', '')].  A list or
    str item only passes when neither [in] test holds (the indexing that
    follows a true test raises TypeError); any other value raises
    TypeError at [in].  The loop over a dict runs over its keys, the loop
    over a str over its one-character strings. *)
Fixpoint update_item (item : json) : option json :=
  match item with
  | JObj kvs =>
      if has_key "item" kvs then
        let? kvs' := update_at "item" update_requests kvs in
        Some (JObj kvs')
      else if has_key "request" kvs then
        let? request := py_getitem item "request" in
        let name := dict_get kvs "name" (JStr "") in
        let? request' := update_request name request in
        py_setitem item "request" request'
      else Some item
  | JArr l =>
      if existsb (is_str "item") l then None
      else if existsb (is_str "request") l then None
      else Some item
  | JStr s => if str_item_ok s then Some item else None
  | _ => None
  end
with update_requests (items : json) : option json :=
  match items with
  | JArr l =>
      let? l' := map_option update_item l in
      Some (JArr l')
  | JObj kvs =>
      if forallb (fun kv => str_item_ok (fst kv)) kvs then Some items else None
  | JStr s =>
      if forallb (fun c => str_item_ok (String c EmptyString)) (list_ascii_of_string s)
      then Some items else None
  | _ => None
  end.

(** ** The literal [seeded_data_folder] (lines 43-243) *)

Definition token_event : json :=
  JObj [("listen", JStr "test");
        ("script", JObj [
           ("exec", JArr [
              JStr "var jsonData = pm.response.json();";
              JStr "if (jsonData.data && jsonData.data.token) {";
              JStr (pystr "    pm.environment.set(`auth_token`, jsonData.data.token);");
              JStr "}"]);
           ("type", JStr "text/javascript")])].

Definition seeded_item_1 : json :=
  JObj [("name", JStr "Login as john.doe");
        ("event", JArr [token_event]);
        ("request", JObj [
           ("method", JStr "POST");
           ("header", JArr [JObj [("key", JStr "Content-Type"); ("value", JStr "application/json")]]);
           ("body", JObj [("mode", JStr "raw");
                          ("raw", JStr (pystr "{~  `id`: `john.doe`,~  `password`: `password123`~}"))]);
           ("url", JObj [("raw", JStr "{{base_url}}/api/users/_login");
                         ("host", JArr [JStr "{{base_url}}"]);
                         ("path", JArr [JStr "api"; JStr "users"; JStr "_login"])]);
           ("description", JStr "Login with seeded user john.doe")]);
        ("response", JArr [])].

Definition seeded_item_2 : json :=
  JObj [("name", JStr "Login as jane.smith");
        ("event", JArr [token_event]);
        ("request", JObj [
           ("method", JStr "POST");
           ("header", JArr [JObj [("key", JStr "Content-Type"); ("value", JStr "application/json")]]);
           ("body", JObj [("mode", JStr "raw");
                          ("raw", JStr (pystr "{~  `id`: `jane.smith`,~  `password`: `SecurePass456!`~}"))]);
           ("url", JObj [("raw", JStr "{{base_url}}/api/users/_login");
                         ("host", JArr [JStr "{{base_url}}"]);
                         ("path", JArr [JStr "api"; JStr "users"; JStr "_login"])]);
           ("description", JStr "Login with seeded user jane.smith")]);
        ("response", JArr [])].

Definition auth_header : json :=
  JObj [("key", JStr "Authorization"); ("value", JStr "{{auth_token}}")].

(** Items 3 to 7 share one shape: a GET with the authorization header. *)
Definition seeded_get (name url : string) (path : list string) (descr : string) : json :=
  JObj [("name", JStr name);
        ("request", JObj [
           ("method", JStr "GET");
           ("header", JArr [auth_header]);
           ("url", JObj [("raw", JStr url);
                         ("host", JArr [JStr "{{base_url}}"]);
                         ("path", JArr (map JStr path))]);
           ("description", JStr descr)]);
        ("response", JArr [])].

Definition seeded_item_3 : json :=
  seeded_get "Get Seeded Contact - Alice Johnson"
    "{{base_url}}/api/contacts/550e8400-e29b-41d4-a716-446655440001"
    ["api"; "contacts"; "550e8400-e29b-41d4-a716-446655440001"]
    "Get Alice Johnson (seeded contact for john.doe)".

Definition seeded_item_4 : json :=
  seeded_get "Get Seeded Contact - Bob Williams"
    "{{base_url}}/api/contacts/550e8400-e29b-41d4-a716-446655440002"
    ["api"; "contacts"; "550e8400-e29b-41d4-a716-446655440002"]
    "Get Bob Williams (seeded contact for john.doe)".

Definition seeded_item_5 : json :=
  seeded_get "Get Seeded Contact - Charlie Brown"
    "{{base_url}}/api/contacts/550e8400-e29b-41d4-a716-446655440003"
    ["api"; "contacts"; "550e8400-e29b-41d4-a716-446655440003"]
    "Get Charlie Brown (seeded contact for john.doe)".

Definition seeded_item_6 : json :=
  seeded_get "List Addresses for Alice Johnson"
    "{{base_url}}/api/contacts/550e8400-e29b-41d4-a716-446655440001/addresses"
    ["api"; "contacts"; "550e8400-e29b-41d4-a716-446655440001"; "addresses"]
    "List all addresses for Alice Johnson (should return 2 addresses)".

Definition seeded_item_7 : json :=
  seeded_get "Get Seeded Address - Alice's NY Address"
    "{{base_url}}/api/contacts/550e8400-e29b-41d4-a716-446655440001/addresses/660e8400-e29b-41d4-a716-446655440001"
    ["api"; "contacts"; "550e8400-e29b-41d4-a716-446655440001"; "addresses";
     "660e8400-e29b-41d4-a716-446655440001"]
    "Get Alice's NY address (123 Main Street, New York)".

Definition seeded_item_8 : json :=
  JObj [("name", JStr "Update Seeded Contact - Alice Johnson");
        ("request", JObj [
           ("method", JStr "PUT");
           ("header", JArr [auth_header;
                            JObj [("key", JStr "Content-Type"); ("value", JStr "application/json")]]);
           ("body", JObj [("mode", JStr "raw");
                          ("raw", JStr (pystr "{~  `first_name`: `Alice Updated`,~  `last_name`: `Johnson Updated`,~  `email`: `alice.updated@example.com`,~  `phone`: `+1-555-9999`~}"))]);
           ("url", JObj [("raw", JStr "{{base_url}}/api/contacts/550e8400-e29b-41d4-a716-446655440001");
                         ("host", JArr [JStr "{{base_url}}"]);
                         ("path", JArr [JStr "api"; JStr "contacts"; JStr "550e8400-e29b-41d4-a716-446655440001"])]);
           ("description", JStr "Update Alice Johnson's information")]);
        ("response", JArr [])].

Definition seeded_items : list json :=
  [seeded_item_1; seeded_item_2; seeded_item_3; seeded_item_4;
   seeded_item_5; seeded_item_6; seeded_item_7; seeded_item_8].

Definition seeded_data_folder : json :=
  JObj [("name", JStr "Seeded Data Tests"); ("item", JArr seeded_items)].

(** ** The transformation of the loaded [collection] (lines 40-246)

    [update_requests(collection['item'])] followed by
    [collection['item'].insert(0, seeded_data_folder)]: [.insert] only
    exists on a list (AttributeError otherwise). *)
Definition transform (collection : json) : option json :=
  let? items := py_getitem collection "item" in
  let? items' := update_requests items in
  match items' with
  | JArr l => py_setitem collection "item" (JArr (seeded_data_folder :: l))
  | _ => None
  end.

(** The top-level item list of a document. *)
Definition top_items (doc : json) : option (list json) :=
  match py_getitem doc "item" with Some (JArr l) => Some l | _ => None end.

(** An item's [name] field. *)
Definition item_name (item : json) : option json :=
  py_getitem item "name".

(** ** The script with its file (lines 3-5 and 248-250)

    The file at the fixed path holds [Some t] when it can be opened and
    read as text [t], [None] when it is missing or unreadable.  [json.load]
    and [json.dump] are library code and stay parameters. *)

Inductive outcome : Type :=
| Success
| IOError        (* open/read fails: FileNotFoundError, OSError *)
| DecodeError    (* json.load fails: JSONDecodeError *)
| RuntimeError.  (* KeyError, TypeError, AttributeError in the mutation pass *)

Section Script.

Variable text : Type.
Variable json_load : text -> option json.
Variable json_dump : json -> text.

(** One run: the outcome and the file contents afterwards.  The file is
    only opened for writing (and so truncated) after the read, the parse
    and the mutation pass have all returned. *)
Definition main (file : option text) : outcome * option text :=
  match file with
  | None => (IOError, file)
  | Some t =>
      match json_load t with
      | None => (DecodeError, file)
      | Some collection =>
          match transform collection with
          | None => (RuntimeError, file)
          | Some collection' => (Success, Some (json_dump collection'))
          end
      end
  end.

End Script.

(** ** Documents of the data model

    An item is a dict; a folder (key ["item"]) holds a list of items; a
    request (key ["request"], no ["item"]) has a dict descriptor whose
    ["body"], when present, is a dict.  The document is a dict whose
    ["item"] is a list of items. *)
Fixpoint test_at (k : string) (f : json -> bool) (kvs : list (string * json)) : bool :=
  match kvs with
  | [] => false
  | (k', v) :: rest => if String.eqb k' k then f v else test_at k f rest
  end.

Fixpoint wf_item (j : json) : bool :=
  match j with
  | JObj kvs =>
      if has_key "item" kvs then
        test_at "item" (fun v => match v with JArr sub => forallb wf_item sub | _ => false end) kvs
      else if has_key "request" kvs then
        match assoc "request" kvs with
        | Some (JObj r) =>
            match assoc "body" r with
            | None | Some (JObj _) => true
            | Some _ => false
            end
        | _ => false
        end
      else true
  | _ => false
  end.

Definition wf_doc (doc : json) : bool :=
  match top_items doc with
  | Some l => forallb wf_item l
  | None => false
  end.

(** The item reached from a list of items by a path of indices, going
    down through the ["item"] list of each folder on the way. *)
Fixpoint nav (p : list nat) (l : list json) : option json :=
  match p with
  | [] => None
  | i :: p' =>
      let? it := nth_error l i in
      match p' with
      | [] => Some it
      | _ :: _ =>
          match py_getitem it "item" with
          | Some (JArr sub) => nav p' sub
          | _ => None
          end
      end
  end.

Definition item_at (p : list nat) (doc : json) : option json :=
  let? l := top_items doc in nav p l.

(** A request item: a dict with a ["request"] key and no ["item"] key. *)
Definition is_request_item (kvs : list (string * json)) : bool :=
  negb (has_key "item" kvs) && has_key "request" kvs.

Definition target_names : list string :=
  ["Register User - Success"; "Register User - Duplicate ID";
   "Login - Success"; "Login - Invalid Credentials"].

(** The test script of an item that stores [data.token] of the JSON
    response as the environment variable [auth_token]. *)
Definition stores_auth_token (item : json) : bool :=
  match py_getitem item "event" with
  | Some (JArr evs) =>
      existsb (fun ev =>
        match py_getitem ev "listen", py_getitem ev "script" with
        | Some (JStr "test"), Some script =>
            match py_getitem script "exec" with
            | Some (JArr lines) =>
                existsb (is_str "var jsonData = pm.response.json();") lines &&
                existsb (is_str "if (jsonData.data && jsonData.data.token) {") lines &&
                existsb (is_str (pystr "    pm.environment.set(`auth_token`, jsonData.data.token);")) lines
            | _ => false
            end
        | _, _ => false
        end) evs
  | _ => false
  end.

(** ** Induction over nested JSON *)

Section JsonInd.
Variable P : json -> Prop.
Hypothesis HNull : P JNull.
Hypothesis HBool : forall b, P (JBool b).
Hypothesis HNum : forall n, P (JNum n).
Hypothesis HStr : forall s, P (JStr s).
Hypothesis HArr : forall l, Forall P l -> P (JArr l).
Hypothesis HObj : forall kvs, Forall (fun kv => P (snd kv)) kvs -> P (JObj kvs).

Fixpoint json_deep_ind (j : json) : P j :=
  match j with
  | JNull => HNull
  | JBool b => HBool b
  | JNum n => HNum n
  | JStr s => HStr s
  | JArr l =>
      HArr l ((fix go (l : list json) : Forall P l :=
                 match l with
                 | [] => Forall_nil _
                 | x :: rest => Forall_cons _ (json_deep_ind x) (go rest)
                 end) l)
  | JObj kvs =>
      HObj kvs ((fix go (l : list (string * json)) : Forall (fun kv => P (snd kv)) l :=
                   match l with
                   | [] => Forall_nil _
                   | kv :: rest => Forall_cons _ (json_deep_ind (snd kv)) (go rest)
                   end) kvs)
  end.
End JsonInd.

(** * Lemmas *)

(** ** Small concrete runs *)

Example update_login_success_run :
  update_item (JObj [("name", JStr "Login - Success");
                     ("request", JObj [("body", JObj [("mode", JStr "raw"); ("raw", JStr "x")])])])
  = Some (JObj [("name", JStr "Login - Success");
                ("request", JObj [("body", JObj [("mode", JStr "raw");
                                                 ("raw", JStr raw_login_success)])])]).
Proof. reflexivity. Qed.

Example update_null_body_raises :
  update_item (JObj [("name", JStr "Login - Success");
                     ("request", JObj [("body", JNull)])]) = None.
Proof. reflexivity. Qed.

Example seeded_folder_passes_unchanged :
  update_item seeded_data_folder = Some seeded_data_folder.
Proof. vm_compute. reflexivity. Qed.

(** ** Association lists *)

Lemma eqb_refl' (s : string) : String.eqb s s = true.
Proof. apply String.eqb_refl. Qed.

Lemma assoc_dict_set_eq k v kvs : assoc k (dict_set k v kvs) = Some v.
Proof.
  induction kvs as [|[k' v'] rest IH]; simpl.
  - rewrite eqb_refl'. reflexivity.
  - destruct (String.eqb k' k) eqn:E; simpl; rewrite ?E; auto.
Qed.

Lemma assoc_dict_set_neq k k2 v kvs :
  k2 <> k -> assoc k2 (dict_set k v kvs) = assoc k2 kvs.
Proof.
  intros Hne. induction kvs as [|[k' v'] rest IH]; simpl.
  - destruct (String.eqb k k2) eqn:E; [apply String.eqb_eq in E; congruence|reflexivity].
  - destruct (String.eqb k' k) eqn:E; simpl.
    + apply String.eqb_eq in E; subst k'.
      destruct (String.eqb k k2) eqn:E2; [apply String.eqb_eq in E2; congruence|reflexivity].
    + destruct (String.eqb k' k2); auto.
Qed.

Lemma dict_set_assoc k v kvs : assoc k kvs = Some v -> dict_set k v kvs = kvs.
Proof.
  induction kvs as [|[k' v'] rest IH]; simpl; [discriminate|].
  destruct (String.eqb k' k); intros H; [congruence|]. f_equal. auto.
Qed.

Lemma dict_set_dict_set k v w kvs : dict_set k v (dict_set k w kvs) = dict_set k v kvs.
Proof.
  induction kvs as [|[k' v'] rest IH]; simpl.
  - rewrite eqb_refl'. reflexivity.
  - destruct (String.eqb k' k) eqn:E; simpl; rewrite E; [reflexivity|]. f_equal; auto.
Qed.

Lemma has_key_assoc k kvs : has_key k kvs = true <-> exists v, assoc k kvs = Some v.
Proof.
  induction kvs as [|[k' v'] rest IH]; simpl.
  - split; [discriminate|intros [v H]; discriminate].
  - destruct (String.eqb k' k); simpl; [split; eauto|exact IH].
Qed.

Lemma has_key_assoc_none k kvs : has_key k kvs = false <-> assoc k kvs = None.
Proof.
  induction kvs as [|[k' v'] rest IH]; simpl; [tauto|].
  destruct (String.eqb k' k); simpl; [split; discriminate|exact IH].
Qed.

Lemma has_key_dict_set k k2 v kvs :
  has_key k2 (dict_set k v kvs) = String.eqb k k2 || has_key k2 kvs.
Proof.
  induction kvs as [|[k' v'] rest IH]; simpl.
  - rewrite orb_false_r. reflexivity.
  - destruct (String.eqb k' k) eqn:E; simpl.
    + apply String.eqb_eq in E; subst k'. destruct (String.eqb k k2); reflexivity.
    + rewrite IH. destruct (String.eqb k' k2), (String.eqb k k2); reflexivity.
Qed.

Lemma assoc_In k v kvs : assoc k kvs = Some v -> In (k, v) kvs.
Proof.
  induction kvs as [|[k' v'] rest IH]; simpl; [discriminate|].
  destruct (String.eqb k' k) eqn:E; intros H.
  - apply String.eqb_eq in E; subst. left; congruence.
  - right; auto.
Qed.

(** [update_at] is [assoc] followed by [dict_set]. *)
Lemma update_at_spec k f kvs :
  update_at k f kvs = (let? v := assoc k kvs in let? v' := f v in Some (dict_set k v' kvs)).
Proof.
  induction kvs as [|[k' v] rest IH]; simpl; [reflexivity|].
  destruct (String.eqb k' k) eqn:E.
  - destruct (f v); reflexivity.
  - rewrite IH. destruct (assoc k rest); [|reflexivity]. destruct (f j); reflexivity.
Qed.

(** [map_option] succeeds exactly elementwise. *)
Lemma map_option_Forall2 f l l' :
  map_option f l = Some l' <-> Forall2 (fun a b => f a = Some b) l l'.
Proof.
  revert l'; induction l as [|x rest IH]; intros l'; simpl.
  - split; [intros H; injection H as <-; constructor|intros H; inversion H; reflexivity].
  - split.
    + destruct (f x) eqn:Ex; [|discriminate].
      destruct (map_option f rest) eqn:Er; [|discriminate].
      intros H; injection H as <-. constructor; [assumption|apply IH; reflexivity].
    + intros H; inversion H as [|? ? ? ? Hx Hr]; subst.
      rewrite Hx. apply IH in Hr. rewrite Hr. reflexivity.
Qed.


(** ** Unfolding the walker on a dict item *)

Lemma update_item_group kvs :
  has_key "item" kvs = true ->
  update_item (JObj kvs) =
    (let? v := assoc "item" kvs in
     let? v' := update_requests v in Some (JObj (dict_set "item" v' kvs))).
Proof.
  intros H. simpl. rewrite H, update_at_spec.
  destruct (assoc "item" kvs); [|reflexivity].
  destruct (update_requests j); reflexivity.
Qed.

Lemma update_item_request kvs :
  has_key "item" kvs = false -> has_key "request" kvs = true ->
  update_item (JObj kvs) =
    (let? r := assoc "request" kvs in
     let? r' := update_request (dict_get kvs "name" (JStr "")) r in
     Some (JObj (dict_set "request" r' kvs))).
Proof.
  intros H1 H2. cbn [update_item]. rewrite H1, H2. reflexivity.
Qed.

(** ** Re-running the walker changes nothing *)

Lemma patch_request_fixed lit descr kvs b :
  assoc "body" kvs = Some (JObj b) -> assoc "raw" b = Some (JStr lit) ->
  (forall d, descr = Some d -> assoc "description" kvs = Some (JStr d)) ->
  patch_request lit descr (JObj kvs) = Some (JObj kvs).
Proof.
  intros Hb Hr Hd. unfold patch_request; simpl.
  assert (Hkb : has_key "body" kvs = true) by (apply has_key_assoc; eauto).
  assert (Hkr : has_key "raw" b = true) by (apply has_key_assoc; eauto).
  rewrite Hkb, Hb; simpl. rewrite Hkr.
  rewrite (dict_set_assoc _ _ _ Hr), (dict_set_assoc _ _ _ Hb).
  destruct descr as [d|]; [|reflexivity].
  simpl. rewrite (dict_set_assoc _ _ _ (Hd d eq_refl)). reflexivity.
Qed.

Lemma patch_request_idem lit descr r r' :
  patch_request lit descr r = Some r' -> patch_request lit descr r' = Some r'.
Proof.
  intros H. assert (Hsame : r' = r -> patch_request lit descr r' = Some r')
    by (intros ->; exact H).
  unfold patch_request in H.
  destruct r as [|b0|n0|s|l|kvs]; simpl in H; try discriminate.
  - destruct (str_contains "body" s); simpl in H; [discriminate|].
    injection H as <-; auto.
  - destruct (existsb (is_str "body") l); simpl in H; [discriminate|].
    injection H as <-; auto.
  - destruct (has_key "body" kvs) eqn:Eb; [|injection H as <-; auto].
    destruct (assoc "body" kvs) as [b|] eqn:Eab; [|discriminate].
    destruct b as [|b0|n0|s|bl|bk]; simpl in H; try discriminate.
    + destruct (str_contains "raw" s); simpl in H; [discriminate|].
      injection H as <-; auto.
    + destruct (existsb (is_str "raw") bl); simpl in H; [discriminate|].
      injection H as <-; auto.
    + destruct (has_key "raw" bk) eqn:Er; [|injection H as <-; auto].
      destruct descr as [d|]; simpl in H; injection H as <-.
      * apply (patch_request_fixed _ _ _ (dict_set "raw" (JStr lit) bk)).
        -- rewrite assoc_dict_set_neq by discriminate. apply assoc_dict_set_eq.
        -- apply assoc_dict_set_eq.
        -- intros d' Hd'; injection Hd' as <-. apply assoc_dict_set_eq.
      * apply (patch_request_fixed _ _ _ (dict_set "raw" (JStr lit) bk)).
        -- apply assoc_dict_set_eq.
        -- apply assoc_dict_set_eq.
        -- discriminate.
Qed.

Lemma update_request_idem name r r' :
  update_request name r = Some r' -> update_request name r' = Some r'.
Proof.
  unfold update_request.
  destruct (is_str "Register User - Success" name); [apply patch_request_idem|].
  destruct (is_str "Register User - Duplicate ID" name); [apply patch_request_idem|].
  destruct (is_str "Login - Success" name); [apply patch_request_idem|].
  destruct (is_str "Login - Invalid Credentials" name); [apply patch_request_idem|].
  intros H; injection H as <-; reflexivity.
Qed.

Lemma Forall2_fixed (P : json -> Prop) (f : json -> option json) l l' :
  Forall (fun x => forall y, f x = Some y -> f y = Some y) l ->
  Forall2 (fun a b => f a = Some b) l l' ->
  Forall2 (fun a b => f a = Some b) l' l'.
Proof.
  intros HF H2. induction H2 as [|x y l l' Hxy Hr IH]; constructor.
  - inversion HF; subst; auto.
  - inversion HF; subst; auto.
Qed.

Lemma walker_idem (j : json) :
  (forall j', update_item j = Some j' -> update_item j' = Some j') /\
  (forall j', update_requests j = Some j' -> update_requests j' = Some j').
Proof.
  induction j as [| | | s | l IH | kvs IH] using json_deep_ind;
    split; intros j' H; simpl in H; try discriminate.
  - destruct (str_item_ok s) eqn:E; [injection H as <-; simpl; rewrite E; reflexivity|discriminate].
  - destruct (forallb _ _) eqn:E; [injection H as <-; simpl; rewrite E; reflexivity|discriminate].
  - destruct (existsb (is_str "item") l) eqn:E1; [discriminate|].
    destruct (existsb (is_str "request") l) eqn:E2; [discriminate|].
    injection H as <-; simpl; rewrite E1, E2; reflexivity.
  - destruct (map_option update_item l) as [l'|] eqn:E; [|discriminate].
    injection H as <-. simpl.
    apply map_option_Forall2 in E.
    assert (Hl' : map_option update_item l' = Some l').
    { apply map_option_Forall2. eapply (Forall2_fixed (fun _ => True)); [|exact E].
      eapply Forall_impl; [|exact IH]. intros x [Hx _]; exact Hx. }
    rewrite Hl'. reflexivity.
  - fold update_item in H. fold update_requests in H.
    destruct (has_key "item" kvs) eqn:Ei.
    + rewrite update_at_spec in H.
      destruct (assoc "item" kvs) as [v|] eqn:Ev; [|discriminate].
      destruct (update_requests v) as [v'|] eqn:Ev'; [|discriminate].
      injection H as <-.
      assert (Hv : update_requests v' = Some v').
      { apply assoc_In in Ev. rewrite Forall_forall in IH.
        apply (IH _ Ev). exact Ev'. }
      rewrite update_item_group by (rewrite has_key_dict_set, eqb_refl'; reflexivity).
      rewrite assoc_dict_set_eq, Hv, dict_set_dict_set. reflexivity.
    + destruct (has_key "request" kvs) eqn:Er.
      * unfold py_getitem, py_setitem in H.
        destruct (assoc "request" kvs) as [r|] eqn:Ear; [|discriminate].
        destruct (update_request (dict_get kvs "name" (JStr "")) r) as [r'|] eqn:Eu;
          [|discriminate].
        injection H as <-.
        rewrite update_item_request.
        -- rewrite assoc_dict_set_eq.
           unfold dict_get. rewrite assoc_dict_set_neq by discriminate.
           fold (dict_get kvs "name" (JStr "")).
           rewrite (update_request_idem _ _ _ Eu), dict_set_dict_set. reflexivity.
        -- rewrite has_key_dict_set, Ei. reflexivity.
        -- rewrite has_key_dict_set, eqb_refl'. reflexivity.
      * injection H as <-. simpl. rewrite Ei, Er. reflexivity.
  - destruct (forallb _ _) eqn:E; [injection H as <-; simpl; rewrite E; reflexivity|discriminate].
Qed.

(** ** The transformation and the position of items *)

Lemma transform_spec d d' :
  transform d = Some d' ->
  exists kvs l l',
    d = JObj kvs /\ top_items d = Some l /\
    Forall2 (fun a b => update_item a = Some b) l l' /\
    d' = JObj (dict_set "item" (JArr (seeded_data_folder :: l')) kvs) /\
    top_items d' = Some (seeded_data_folder :: l').
Proof.
  unfold transform. intros H.
  destruct d as [| | | | |kvs]; simpl in H; try discriminate.
  destruct (assoc "item" kvs) as [items|] eqn:Ei; [|discriminate].
  destruct (update_requests items) as [items'|] eqn:Eu; [|discriminate].
  destruct items' as [| | | |l'|]; try discriminate.
  injection H as <-.
  destruct items as [| | | s |l|ikvs]; simpl in Eu; try discriminate.
  - destruct (forallb _ _); discriminate.
  - destruct (map_option update_item l) as [l2|] eqn:Em; [|discriminate].
    injection Eu as <-.
    exists kvs, l, l2. repeat split.
    + unfold top_items; simpl. rewrite Ei. reflexivity.
    + apply map_option_Forall2. exact Em.
    + unfold top_items; simpl. rewrite assoc_dict_set_eq. reflexivity.
  - destruct (forallb _ _); discriminate.
Qed.

Lemma Forall2_nth_error' {A B} (R : A -> B -> Prop) l l' i x :
  Forall2 R l l' -> nth_error l i = Some x ->
  exists y, nth_error l' i = Some y /\ R x y.
Proof.
  intros H2. revert i. induction H2 as [|a b l l' Hab Hr IH]; intros i Hi.
  - destruct i; discriminate.
  - destruct i as [|i]; simpl in *.
    + injection Hi as <-. eauto.
    + apply IH. exact Hi.
Qed.

Lemma nav_update p l l' it :
  Forall2 (fun a b => update_item a = Some b) l l' ->
  nav p l = Some it ->
  exists it', nav p l' = Some it' /\ update_item it = Some it'.
Proof.
  revert l l' it. induction p as [|i p IH]; intros l l' it H2 Hn; [discriminate|].
  simpl in Hn.
  destruct (nth_error l i) as [x|] eqn:Ex; [|discriminate].
  destruct (Forall2_nth_error' _ _ _ _ _ H2 Ex) as [y [Ey Hxy]].
  simpl. rewrite Ey.
  destruct p as [|j p'].
  - injection Hn as <-. eauto.
  - destruct x as [| | | | |kvs]; simpl in Hn; try discriminate.
    destruct (assoc "item" kvs) as [sub|] eqn:Es; [|discriminate].
    destruct sub as [| | | |sub|]; try discriminate.
    rewrite update_item_group in Hxy by (apply has_key_assoc; eauto).
    rewrite Es in Hxy. simpl in Hxy.
    destruct (map_option update_item sub) as [sub'|] eqn:Em; [|discriminate].
    injection Hxy as <-. simpl. rewrite assoc_dict_set_eq.
    apply map_option_Forall2 in Em.
    exact (IH _ _ _ Em Hn).
Qed.

(** After the transformation, the item at path [i :: p] has moved to
    [S i :: p] and is what the walker made of it. *)
Lemma transform_item_at d d' i p it :
  transform d = Some d' ->
  item_at (i :: p) d = Some it ->
  exists it', item_at (S i :: p) d' = Some it' /\ update_item it = Some it'.
Proof.
  intros Ht Hit.
  destruct (transform_spec _ _ Ht) as (kvs & l & l' & _ & Hl & H2 & _ & Hl').
  unfold item_at in *. rewrite Hl in Hit. simpl in Hit. rewrite Hl'. simpl.
  exact (nav_update (i :: p) l l' it H2 Hit).
Qed.

(** ** Request items *)

Lemma is_str_true n v : is_str n v = true -> v = JStr n.
Proof.
  destruct v; simpl; try discriminate. intros H. apply String.eqb_eq in H. congruence.
Qed.

Lemma is_request_item_keys kvs :
  is_request_item kvs = true ->
  has_key "item" kvs = false /\ has_key "request" kvs = true.
Proof.
  unfold is_request_item. destruct (has_key "item" kvs), (has_key "request" kvs);
    simpl; intuition discriminate.
Qed.

(** A request item whose name is none of the four targets passes through. *)
Lemma request_item_other_name kvs :
  is_request_item kvs = true ->
  (forall n, In n target_names -> assoc "name" kvs <> Some (JStr n)) ->
  update_item (JObj kvs) = Some (JObj kvs).
Proof.
  intros Hr Hn. destruct (is_request_item_keys _ Hr) as [Hi Hq].
  rewrite update_item_request by assumption.
  destruct (proj1 (has_key_assoc _ _) Hq) as [r Er]. rewrite Er.
  assert (Hu : update_request (dict_get kvs "name" (JStr "")) r = Some r).
  { unfold update_request, dict_get.
    destruct (assoc "name" kvs) as [v|] eqn:Ev; [|reflexivity].
    destruct (is_str "Register User - Success" v) eqn:E1;
      [apply is_str_true in E1; subst; exfalso; apply (Hn _ (or_introl eq_refl)); reflexivity|].
    destruct (is_str "Register User - Duplicate ID" v) eqn:E2;
      [apply is_str_true in E2; subst; exfalso;
       apply (Hn _ (or_intror (or_introl eq_refl))); reflexivity|].
    destruct (is_str "Login - Success" v) eqn:E3;
      [apply is_str_true in E3; subst; exfalso;
       apply (Hn _ (or_intror (or_intror (or_introl eq_refl)))); reflexivity|].
    destruct (is_str "Login - Invalid Credentials" v) eqn:E4;
      [apply is_str_true in E4; subst; exfalso;
       apply (Hn _ (or_intror (or_intror (or_intror (or_introl eq_refl))))); reflexivity|].
    reflexivity. }
  rewrite Hu, (dict_set_assoc _ _ _ Er). reflexivity.
Qed.

(** The patch of one branch on a request whose body is a dict with a
    ["raw"] key. *)
Lemma patch_request_hit lit descr r b :
  assoc "body" r = Some (JObj b) -> has_key "raw" b = true ->
  patch_request lit descr (JObj r) =
    Some (JObj (let r1 := dict_set "body" (JObj (dict_set "raw" (JStr lit) b)) r in
                match descr with
                | Some d => dict_set "description" (JStr d) r1
                | None => r1
                end)).
Proof.
  intros Hb Hr. unfold patch_request; simpl.
  assert (Hkb : has_key "body" r = true) by (apply has_key_assoc; eauto).
  rewrite Hkb, Hb; simpl. rewrite Hr. destruct descr; reflexivity.
Qed.

(** A request whose body is missing, or a dict without ["raw"], is never
    patched. *)
Lemma patch_request_miss lit descr r :
  (has_key "body" r = false \/
   exists b, assoc "body" r = Some (JObj b) /\ has_key "raw" b = false) ->
  patch_request lit descr (JObj r) = Some (JObj r).
Proof.
  intros [Hb | (b & Hb & Hr)]; unfold patch_request; simpl.
  - rewrite Hb. reflexivity.
  - assert (Hkb : has_key "body" r = true) by (apply has_key_assoc; eauto).
    rewrite Hkb, Hb; simpl. rewrite Hr. reflexivity.
Qed.

(** ** Documents of the data model are transformed without error *)

Lemma test_at_spec k f kvs :
  test_at k f kvs = match assoc k kvs with Some v => f v | None => false end.
Proof.
  induction kvs as [|[k' v] rest IH]; simpl; [reflexivity|].
  destruct (String.eqb k' k); [reflexivity|exact IH].
Qed.

Lemma map_option_total f l :
  (forall x, In x l -> exists y, f x = Some y) ->
  exists l', map_option f l = Some l'.
Proof.
  induction l as [|x rest IH]; intros H; simpl; [eauto|].
  destruct (H x (or_introl eq_refl)) as [y Hy]. rewrite Hy.
  destruct IH as [l' Hl']; [intros z Hz; apply H; right; exact Hz|].
  rewrite Hl'. eauto.
Qed.

Lemma wf_item_update (j : json) :
  (wf_item j = true -> exists j', update_item j = Some j') /\
  (forall sub, j = JArr sub -> forallb wf_item sub = true ->
               exists j', update_requests j = Some j').
Proof.
  induction j as [| | | s | l IH | kvs IH] using json_deep_ind;
    split; simpl; try discriminate; try (intros sub Hs; discriminate).
  - intros sub Hs Hw. injection Hs as <-.
    destruct (map_option_total update_item l) as [l' Hl'].
    { intros x Hx. rewrite Forall_forall in IH. apply (proj1 (IH x Hx)).
      rewrite forallb_forall in Hw. apply Hw, Hx. }
    rewrite Hl'. eauto.
  - fold wf_item update_item update_requests. intros Hw.
    destruct (has_key "item" kvs) eqn:Ei.
    + rewrite test_at_spec in Hw. rewrite update_at_spec.
      destruct (assoc "item" kvs) as [v|] eqn:Ev; [|discriminate].
      destruct v as [| | | |sub|]; try discriminate.
      apply assoc_In in Ev. rewrite Forall_forall in IH.
      destruct (proj2 (IH _ Ev) sub eq_refl Hw) as [v' Hv']. simpl snd in Hv'.
      rewrite Hv'. eauto.
    + destruct (has_key "request" kvs) eqn:Eq; [|eauto].
      unfold py_getitem, py_setitem.
      destruct (assoc "request" kvs) as [r|] eqn:Er; [|discriminate].
      destruct r as [| | | | |r]; try discriminate.
      assert (Hp : forall lit descr, exists r', patch_request lit descr (JObj r) = Some r').
      { intros lit descr.
        destruct (assoc "body" r) as [b|] eqn:Eb.
        - destruct b as [| | | | |b]; try discriminate.
          destruct (has_key "raw" b) eqn:Eraw.
          + rewrite (patch_request_hit _ _ _ _ Eb Eraw). eauto.
          + rewrite patch_request_miss; eauto.
        - rewrite patch_request_miss; [eauto|]. left. apply has_key_assoc_none. exact Eb. }
      unfold update_request.
      repeat match goal with
             | |- context [if ?c then _ else _] => destruct c
             end;
        try (match goal with
             | |- context [patch_request ?a ?b (JObj r)] =>
                 destruct (Hp a b) as [r' Hr']; rewrite Hr'
             end); eauto.
Qed.

(** ** The name dispatch on the four targets *)

Lemma update_request_register_success r :
  update_request (JStr "Register User - Success") r = patch_request raw_register_success None r.
Proof. reflexivity. Qed.

Lemma update_request_register_duplicate r :
  update_request (JStr "Register User - Duplicate ID") r =
  patch_request raw_register_duplicate (Some descr_register_duplicate) r.
Proof. reflexivity. Qed.

(** Whatever the name, a request that [patch_request] leaves alone is
    left alone by the dispatch. *)
Lemma update_request_miss name r :
  (forall lit descr, patch_request lit descr r = Some r) ->
  update_request name r = Some r.
Proof.
  intros H. unfold update_request.
  repeat match goal with |- context [if ?c then _ else _] => destruct c end; auto.
Qed.

(** ** Requests the dispatch cannot patch *)

(** A request item with a dict descriptor that has no ["body"], or a dict
    body without ["raw"], passes the walker unchanged, whatever its name. *)
Lemma request_item_without_raw_unchanged kvs r :
  is_request_item kvs = true ->
  assoc "request" kvs = Some (JObj r) ->
  (has_key "body" r = false \/
   exists b, assoc "body" r = Some (JObj b) /\ has_key "raw" b = false) ->
  update_item (JObj kvs) = Some (JObj kvs).
Proof.
  intros Hr Hq Hmiss.
  destruct (is_request_item_keys _ Hr) as [Hi Hq'].
  rewrite update_item_request by assumption. rewrite Hq.
  rewrite update_request_miss by (intros; apply patch_request_miss; exact Hmiss).
  rewrite (dict_set_assoc _ _ _ Hq). reflexivity.
Qed.

(** A body that is present but not a dict is never patched: either the
    [in] test is false and nothing happens, or the code raises. *)
Lemma patch_request_nondict_body lit descr r r' b :
  patch_request lit descr (JObj r) = Some r' ->
  assoc "body" r = Some b -> (forall bk, b <> JObj bk) ->
  r' = JObj r.
Proof.
  intros H Hb Hnd. unfold patch_request in H. simpl in H.
  assert (Hkb : has_key "body" r = true) by (apply has_key_assoc; eauto).
  rewrite Hkb, Hb in H. simpl in H.
  destruct (py_in "raw" b) as [[|]|]; [|congruence|discriminate].
  destruct b as [| | | | |bk]; simpl in H; try discriminate.
  destruct (Hnd bk eq_refl).
Qed.

Lemma update_request_nondict_body name r r' b :
  update_request name (JObj r) = Some r' ->
  assoc "body" r = Some b -> (forall bk, b <> JObj bk) ->
  r' = JObj r.
Proof.
  unfold update_request.
  repeat match goal with |- context [if ?c then _ else _] => destruct c end;
    try apply patch_request_nondict_body.
  intros H _ _. congruence.
Qed.

(** * The claims *)

(** ** C1: one group is prepended, the old items follow in order *)

(** C1: For every document of the data model the transformation
    succeeds; the top-level list of the result is the fixed group
    ["Seeded Data Tests"] of eight items followed by the old top-level
    items, in their order, each as the walker left it: one item more than
    before. *)
Theorem transform_prepends_seeded_group (d : json) :
  wf_doc d = true ->
  exists d' l l',
    transform d = Some d' /\
    top_items d = Some l /\
    top_items d' = Some (seeded_data_folder :: l') /\
    length (seeded_data_folder :: l') = S (length l) /\
    Forall2 (fun a b => update_item a = Some b) l l' /\
    item_name seeded_data_folder = Some (JStr "Seeded Data Tests") /\
    py_getitem seeded_data_folder "item" = Some (JArr seeded_items) /\
    length seeded_items = 8.
Proof.
  unfold wf_doc. intros Hw.
  destruct (top_items d) as [l|] eqn:Hl; [|discriminate].
  assert (Hd : exists kvs, d = JObj kvs /\ assoc "item" kvs = Some (JArr l)).
  { unfold top_items in Hl. destruct d as [| | | | |kvs]; try discriminate.
    simpl in Hl. destruct (assoc "item" kvs) as [[| | | |l0|]|] eqn:E; try discriminate.
    injection Hl as <-. eauto. }
  destruct Hd as (kvs & -> & Ea).
  destruct (map_option_total update_item l) as [l' Hl'].
  { intros x Hx. apply (proj1 (wf_item_update x)).
    rewrite forallb_forall in Hw. apply Hw, Hx. }
  assert (Ht : transform (JObj kvs) =
               Some (JObj (dict_set "item" (JArr (seeded_data_folder :: l')) kvs))).
  { unfold transform; simpl. rewrite Ea. simpl. rewrite Hl'. reflexivity. }
  destruct (transform_spec _ _ Ht) as (kvs0 & l0 & l0' & _ & Hl0 & H2 & _ & Hl0').
  rewrite Hl in Hl0. injection Hl0 as <-.
  exists (JObj (dict_set "item" (JArr (seeded_data_folder :: l')) kvs)), l, l0'.
  repeat split; auto.
  simpl. f_equal. symmetry. exact (Forall2_length H2).
Qed.

Lemma transform_prepends_seeded_group_witness :
  wf_doc (JObj [("info", JStr "x");
                ("item", JArr [JObj [("name", JStr "Auth");
                                     ("item", JArr [JObj [("name", JStr "Login - Success");
                                                          ("request", JObj [("body", JObj [("raw", JStr "")])])]])]])])
  = true /\
  exists d' l l',
    transform (JObj [("info", JStr "x");
                     ("item", JArr [JObj [("name", JStr "Auth");
                                          ("item", JArr [JObj [("name", JStr "Login - Success");
                                                               ("request", JObj [("body", JObj [("raw", JStr "")])])]])]])])
    = Some d' /\
    top_items (JObj [("info", JStr "x");
                     ("item", JArr [JObj [("name", JStr "Auth");
                                          ("item", JArr [JObj [("name", JStr "Login - Success");
                                                               ("request", JObj [("body", JObj [("raw", JStr "")])])]])]])])
    = Some l /\
    top_items d' = Some (seeded_data_folder :: l') /\
    length (seeded_data_folder :: l') = S (length l) /\
    Forall2 (fun a b => update_item a = Some b) l l' /\
    item_name seeded_data_folder = Some (JStr "Seeded Data Tests") /\
    py_getitem seeded_data_folder "item" = Some (JArr seeded_items) /\
    length seeded_items = 8.
Proof.
  split; [reflexivity|]. apply transform_prepends_seeded_group. reflexivity.
Defined.

(** ** C5: a second run prepends a second copy *)

(** C5: Whenever the transformation succeeds on a document, it
    succeeds again on its result, and the second result starts with two
    ["Seeded Data Tests"] groups followed by the items of the first
    result: the transformation is not idempotent. *)
Theorem transform_twice_two_seeded_groups (d d1 : json) :
  transform d = Some d1 ->
  exists d2 l1,
    transform d1 = Some d2 /\
    top_items d1 = Some (seeded_data_folder :: l1) /\
    top_items d2 = Some (seeded_data_folder :: seeded_data_folder :: l1) /\
    item_name seeded_data_folder = Some (JStr "Seeded Data Tests").
Proof.
  intros Ht.
  destruct (transform_spec _ _ Ht) as (kvs & l & l' & _ & _ & H2 & -> & Hl').
  assert (Hfix : map_option update_item l' = Some l').
  { apply map_option_Forall2. eapply (Forall2_fixed (fun _ => True)); [|exact H2].
    apply Forall_forall. intros x _ y. apply (proj1 (walker_idem x)). }
  set (d1 := JObj (dict_set "item" (JArr (seeded_data_folder :: l')) kvs)).
  exists (JObj (dict_set "item" (JArr (seeded_data_folder :: seeded_data_folder :: l'))
                  (dict_set "item" (JArr (seeded_data_folder :: l')) kvs))), l'.
  repeat split.
  - unfold transform, d1, py_getitem. rewrite assoc_dict_set_eq.
    cbn [update_requests map_option].
    rewrite seeded_folder_passes_unchanged, Hfix. reflexivity.
  - exact Hl'.
  - unfold top_items; simpl. rewrite assoc_dict_set_eq. reflexivity.
Qed.

Lemma transform_twice_two_seeded_groups_witness :
  exists d1,
    transform (JObj [("item", JArr [JObj [("name", JStr "Ping");
                                          ("request", JObj [("method", JStr "GET")])]])])
    = Some d1 /\
    exists d2 l1,
      transform d1 = Some d2 /\
      top_items d1 = Some (seeded_data_folder :: l1) /\
      top_items d2 = Some (seeded_data_folder :: seeded_data_folder :: l1) /\
      item_name seeded_data_folder = Some (JStr "Seeded Data Tests").
Proof.
  eexists. split; [reflexivity|].
  apply (transform_twice_two_seeded_groups
           (JObj [("item", JArr [JObj [("name", JStr "Ping");
                                       ("request", JObj [("method", JStr "GET")])]])])).
  reflexivity.
Defined.

(** ** C3: "Register User - Success" gets the test.user payload *)

(** C3: If the transformation of a document succeeds, a request item
    named ["Register User - Success"] anywhere in its tree (path
    [i :: p]) whose request has a body dict with a ["raw"] field is found
    at [S i :: p] afterwards, its body ["raw"] being the fixed payload
    with ["id": "test.user"]. *)
Theorem register_success_body_rewritten d d' i p kvs r b :
  transform d = Some d' ->
  item_at (i :: p) d = Some (JObj kvs) ->
  is_request_item kvs = true ->
  assoc "name" kvs = Some (JStr "Register User - Success") ->
  assoc "request" kvs = Some (JObj r) ->
  assoc "body" r = Some (JObj b) ->
  has_key "raw" b = true ->
  exists kvs' r' b',
    item_at (S i :: p) d' = Some (JObj kvs') /\
    assoc "request" kvs' = Some (JObj r') /\
    assoc "body" r' = Some (JObj b') /\
    assoc "raw" b' = Some (JStr raw_register_success).
Proof.
  intros Ht Hit Hr Hn Hq Hb Hraw.
  destruct (transform_item_at _ _ _ _ _ Ht Hit) as (it' & Hat & Hu).
  destruct (is_request_item_keys _ Hr) as [Hi Hq'].
  rewrite update_item_request in Hu by assumption.
  rewrite Hq in Hu. unfold dict_get in Hu. rewrite Hn in Hu.
  rewrite update_request_register_success, (patch_request_hit _ _ _ _ Hb Hraw) in Hu.
  injection Hu as <-.
  eexists _, _, _. split; [exact Hat|].
  split; [apply assoc_dict_set_eq|]. split; apply assoc_dict_set_eq.
Qed.

Lemma register_success_body_rewritten_witness :
  exists d',
    transform (JObj [("item", JArr [JObj [("name", JStr "Users"); ("item", JArr [
                  JObj [("name", JStr "Register User - Success");
                        ("request", JObj [("body", JObj [("mode", JStr "raw"); ("raw", JStr "{}")])])]])]])])
    = Some d' /\
    exists kvs' r' b',
      item_at [1; 0] d' = Some (JObj kvs') /\
      assoc "request" kvs' = Some (JObj r') /\
      assoc "body" r' = Some (JObj b') /\
      assoc "raw" b' = Some (JStr raw_register_success).
Proof.
  eexists. split; [reflexivity|].
  apply (register_success_body_rewritten
           (JObj [("item", JArr [JObj [("name", JStr "Users"); ("item", JArr [
              JObj [("name", JStr "Register User - Success");
                    ("request", JObj [("body", JObj [("mode", JStr "raw"); ("raw", JStr "{}")])])]])]])])
           _ 0 [0]
           [("name", JStr "Register User - Success");
            ("request", JObj [("body", JObj [("mode", JStr "raw"); ("raw", JStr "{}")])])]
           [("body", JObj [("mode", JStr "raw"); ("raw", JStr "{}")])]
           [("mode", JStr "raw"); ("raw", JStr "{}")]);
    reflexivity.
Defined.

(** ** C2: "Register User - Duplicate ID" gets the john.doe payload *)

(** C2 (as the code has it): If the transformation of a document
    succeeds, a request item named ["Register User - Duplicate ID"]
    anywhere in its tree (path [i :: p]) is found at [S i :: p]
    afterwards.  When its request has a body dict with a ["raw"] field,
    its body ["raw"] is the fixed john.doe payload and its
    ["description"] the fixed sentence; when its request dict has no
    ["body"], or a body dict without ["raw"], the item is unchanged,
    description included. *)
Theorem register_duplicate_as_coded :
  (forall d d' i p kvs r b,
     transform d = Some d' ->
     item_at (i :: p) d = Some (JObj kvs) ->
     is_request_item kvs = true ->
     assoc "name" kvs = Some (JStr "Register User - Duplicate ID") ->
     assoc "request" kvs = Some (JObj r) ->
     assoc "body" r = Some (JObj b) ->
     has_key "raw" b = true ->
     exists kvs' r' b',
       item_at (S i :: p) d' = Some (JObj kvs') /\
       assoc "request" kvs' = Some (JObj r') /\
       assoc "body" r' = Some (JObj b') /\
       assoc "raw" b' = Some (JStr raw_register_duplicate) /\
       assoc "description" r' = Some (JStr descr_register_duplicate)) /\
  (forall d d' i p kvs r,
     transform d = Some d' ->
     item_at (i :: p) d = Some (JObj kvs) ->
     is_request_item kvs = true ->
     assoc "name" kvs = Some (JStr "Register User - Duplicate ID") ->
     assoc "request" kvs = Some (JObj r) ->
     (has_key "body" r = false \/
      exists b, assoc "body" r = Some (JObj b) /\ has_key "raw" b = false) ->
     item_at (S i :: p) d' = Some (JObj kvs)).
Proof.
  split.
  - intros d d' i p kvs r b Ht Hit Hr Hn Hq Hb Hraw.
    destruct (transform_item_at _ _ _ _ _ Ht Hit) as (it' & Hat & Hu).
    destruct (is_request_item_keys _ Hr) as [Hi Hq'].
    rewrite update_item_request in Hu by assumption.
    rewrite Hq in Hu. unfold dict_get in Hu. rewrite Hn in Hu.
    rewrite update_request_register_duplicate, (patch_request_hit _ _ _ _ Hb Hraw) in Hu.
    injection Hu as <-.
    eexists _, _, _. split; [exact Hat|].
    split; [apply assoc_dict_set_eq|].
    split; [rewrite assoc_dict_set_neq by discriminate; apply assoc_dict_set_eq|].
    split; [apply assoc_dict_set_eq|apply assoc_dict_set_eq].
  - intros d d' i p kvs r Ht Hit Hr _ Hq Hmiss.
    destruct (transform_item_at _ _ _ _ _ Ht Hit) as (it' & Hat & Hu).
    rewrite (request_item_without_raw_unchanged _ _ Hr Hq Hmiss) in Hu. congruence.
Qed.

Lemma register_duplicate_as_coded_witness :
  (exists d',
    transform (JObj [("item", JArr [
                  JObj [("name", JStr "Register User - Duplicate ID");
                        ("request", JObj [("body", JObj [("raw", JStr "{}")])])]])])
    = Some d' /\
    exists kvs' r' b',
      item_at [1] d' = Some (JObj kvs') /\
      assoc "request" kvs' = Some (JObj r') /\
      assoc "body" r' = Some (JObj b') /\
      assoc "raw" b' = Some (JStr raw_register_duplicate) /\
      assoc "description" r' = Some (JStr descr_register_duplicate)) /\
  (exists d',
    transform (JObj [("item", JArr [
                  JObj [("name", JStr "Register User - Duplicate ID");
                        ("request", JObj [("method", JStr "POST")])]])])
    = Some d' /\
    item_at [1] d' =
      Some (JObj [("name", JStr "Register User - Duplicate ID");
                  ("request", JObj [("method", JStr "POST")])])).
Proof.
  split.
  - eexists. split; [reflexivity|].
    apply (proj1 register_duplicate_as_coded
             (JObj [("item", JArr [
                JObj [("name", JStr "Register User - Duplicate ID");
                      ("request", JObj [("body", JObj [("raw", JStr "{}")])])]])])
             _ 0 []
             [("name", JStr "Register User - Duplicate ID");
              ("request", JObj [("body", JObj [("raw", JStr "{}")])])]
             [("body", JObj [("raw", JStr "{}")])]
             [("raw", JStr "{}")]);
      reflexivity.
  - eexists. split; [reflexivity|].
    apply (proj2 register_duplicate_as_coded
             (JObj [("item", JArr [
                JObj [("name", JStr "Register User - Duplicate ID");
                      ("request", JObj [("method", JStr "POST")])]])])
             _ 0 []
             [("name", JStr "Register User - Duplicate ID");
              ("request", JObj [("method", JStr "POST")])]
             [("method", JStr "POST")]); try reflexivity.
    left. reflexivity.
Defined.

(** C2 as stated fails: a ["Register User - Duplicate ID"] request
    without a body keeps its (absent) description after a successful
    transformation. *)
Lemma register_duplicate_bodyless_counterexample :
  ~ (forall d d' i p kvs,
       transform d = Some d' ->
       item_at (i :: p) d = Some (JObj kvs) ->
       is_request_item kvs = true ->
       assoc "name" kvs = Some (JStr "Register User - Duplicate ID") ->
       exists kvs' r',
         item_at (S i :: p) d' = Some (JObj kvs') /\
         assoc "request" kvs' = Some (JObj r') /\
         assoc "description" r' = Some (JStr descr_register_duplicate)).
Proof.
  intros H.
  destruct (H (JObj [("item", JArr [JObj [("name", JStr "Register User - Duplicate ID");
                                          ("request", JObj [("method", JStr "POST")])]])])
              _ 0 []
              [("name", JStr "Register User - Duplicate ID");
               ("request", JObj [("method", JStr "POST")])]
              eq_refl eq_refl eq_refl eq_refl)
    as (kvs' & r' & Hat & Hq & Hd).
  vm_compute in Hat. injection Hat as <-.
  vm_compute in Hq. injection Hq as <-.
  vm_compute in Hd. discriminate.
Qed.

(** ** C4: other request items are left alone *)

(** C4: If the transformation of a document succeeds, a request item
    anywhere in its tree whose name is none of the four target names is
    found, identical, one top-level position later. *)
Theorem other_request_unchanged d d' i p kvs :
  transform d = Some d' ->
  item_at (i :: p) d = Some (JObj kvs) ->
  is_request_item kvs = true ->
  (forall n, In n target_names -> assoc "name" kvs <> Some (JStr n)) ->
  item_at (S i :: p) d' = Some (JObj kvs).
Proof.
  intros Ht Hit Hr Hn.
  destruct (transform_item_at _ _ _ _ _ Ht Hit) as (it' & Hat & Hu).
  rewrite (request_item_other_name _ Hr Hn) in Hu. congruence.
Qed.

Lemma other_request_unchanged_witness :
  exists d',
    transform (JObj [("item", JArr [
                  JObj [("name", JStr "Get Contact");
                        ("request", JObj [("body", JObj [("raw", JStr "{}")]);
                                          ("description", JStr "d")])]])])
    = Some d' /\
    item_at [1] d' =
      Some (JObj [("name", JStr "Get Contact");
                  ("request", JObj [("body", JObj [("raw", JStr "{}")]);
                                    ("description", JStr "d")])]).
Proof.
  eexists. split; [reflexivity|].
  apply (other_request_unchanged
           (JObj [("item", JArr [
              JObj [("name", JStr "Get Contact");
                    ("request", JObj [("body", JObj [("raw", JStr "{}")]);
                                      ("description", JStr "d")])]])])
           _ 0 []); try reflexivity.
  intros n Hn. simpl in Hn.
  repeat destruct Hn as [<- | Hn]; try discriminate; contradiction.
Defined.

(** ** C7: a target request without body or raw text is skipped *)

(** C7: A request item named one of the four targets whose request dict
    has no ["body"], or whose body dict has no ["raw"], passes the walker
    without error and unchanged. *)
Theorem matched_request_without_raw_unchanged kvs n r :
  is_request_item kvs = true ->
  assoc "name" kvs = Some (JStr n) ->
  In n target_names ->
  assoc "request" kvs = Some (JObj r) ->
  (has_key "body" r = false \/
   exists b, assoc "body" r = Some (JObj b) /\ has_key "raw" b = false) ->
  update_item (JObj kvs) = Some (JObj kvs).
Proof.
  intros Hr _ _ Hq Hmiss.
  destruct (is_request_item_keys _ Hr) as [Hi Hq'].
  rewrite update_item_request by assumption. rewrite Hq.
  rewrite update_request_miss by (intros; apply patch_request_miss; exact Hmiss).
  rewrite (dict_set_assoc _ _ _ Hq). reflexivity.
Qed.

Lemma matched_request_without_raw_unchanged_witness :
  update_item (JObj [("name", JStr "Login - Success");
                     ("request", JObj [("method", JStr "POST");
                                       ("body", JObj [("mode", JStr "formdata")])])])
  = Some (JObj [("name", JStr "Login - Success");
                ("request", JObj [("method", JStr "POST");
                                  ("body", JObj [("mode", JStr "formdata")])])]).
Proof.
  apply (matched_request_without_raw_unchanged _ "Login - Success"
           [("method", JStr "POST"); ("body", JObj [("mode", JStr "formdata")])]);
    try reflexivity.
  - simpl. tauto.
  - right. eexists. split; reflexivity.
Defined.

(** ** C9: the folder test comes first *)

(** C9: An item dict with an ["item"] key is treated as a folder whatever
    its name and whether or not it has a ["request"]: the walker updates
    the ["item"] value recursively and every other field, the
    ["request"] descriptor included, is kept as it was. *)
Theorem folder_check_precedes_request kvs j' :
  has_key "item" kvs = true ->
  update_item (JObj kvs) = Some j' ->
  exists v v',
    assoc "item" kvs = Some v /\
    update_requests v = Some v' /\
    j' = JObj (dict_set "item" v' kvs) /\
    assoc "request" (dict_set "item" v' kvs) = assoc "request" kvs /\
    (forall k, k <> "item" -> assoc k (dict_set "item" v' kvs) = assoc k kvs).
Proof.
  intros Hi Hu. rewrite update_item_group in Hu by exact Hi.
  destruct (assoc "item" kvs) as [v|] eqn:Ev; [|discriminate].
  destruct (update_requests v) as [v'|] eqn:Ev'; [|discriminate].
  injection Hu as <-.
  exists v, v'. refine (conj eq_refl (conj Ev' (conj eq_refl (conj _ _)))).
  - apply assoc_dict_set_neq. discriminate.
  - intros k Hk. apply assoc_dict_set_neq. exact Hk.
Qed.

Lemma folder_check_precedes_request_witness :
  exists j',
    update_item (JObj [("name", JStr "Register User - Success");
                       ("item", JArr []);
                       ("request", JObj [("body", JObj [("raw", JStr "old")])])])
    = Some j' /\
    exists v v',
      assoc "item" [("name", JStr "Register User - Success");
                    ("item", JArr []);
                    ("request", JObj [("body", JObj [("raw", JStr "old")])])] = Some v /\
      update_requests v = Some v' /\
      j' = JObj (dict_set "item" v'
                   [("name", JStr "Register User - Success");
                    ("item", JArr []);
                    ("request", JObj [("body", JObj [("raw", JStr "old")])])]) /\
      assoc "request" (dict_set "item" v'
                   [("name", JStr "Register User - Success");
                    ("item", JArr []);
                    ("request", JObj [("body", JObj [("raw", JStr "old")])])])
      = assoc "request" [("name", JStr "Register User - Success");
                         ("item", JArr []);
                         ("request", JObj [("body", JObj [("raw", JStr "old")])])] /\
      (forall k, k <> "item" ->
         assoc k (dict_set "item" v'
                   [("name", JStr "Register User - Success");
                    ("item", JArr []);
                    ("request", JObj [("body", JObj [("raw", JStr "old")])])])
         = assoc k [("name", JStr "Register User - Success");
                    ("item", JArr []);
                    ("request", JObj [("body", JObj [("raw", JStr "old")])])]).
Proof.
  eexists. split; [reflexivity|].
  apply folder_check_precedes_request; reflexivity.
Defined.

(** ** C10: a missing name reads as the empty string *)

(** C10 (as the code has it): An item dict without a ["name"] key and
    without an ["item"] key (so not a folder) passes the walker without
    error and unchanged: [item.get('name', '')] is [""], which is none of
    the four targets. *)
Theorem nameless_non_folder_unchanged kvs :
  has_key "item" kvs = false ->
  has_key "name" kvs = false ->
  dict_get kvs "name" (JStr "") = JStr "" /\
  update_item (JObj kvs) = Some (JObj kvs).
Proof.
  intros Hi Hn.
  assert (Hg : dict_get kvs "name" (JStr "") = JStr "").
  { unfold dict_get. rewrite (proj1 (has_key_assoc_none _ _) Hn). reflexivity. }
  split; [exact Hg|].
  destruct (has_key "request" kvs) eqn:Hq.
  - apply request_item_other_name.
    + unfold is_request_item. rewrite Hi, Hq. reflexivity.
    + intros n _. rewrite (proj1 (has_key_assoc_none _ _) Hn). discriminate.
  - simpl. rewrite Hi, Hq. reflexivity.
Qed.

Lemma nameless_non_folder_unchanged_witness :
  dict_get [("request", JObj [("body", JObj [("raw", JStr "x")])])] "name" (JStr "") = JStr "" /\
  update_item (JObj [("request", JObj [("body", JObj [("raw", JStr "x")])])])
  = Some (JObj [("request", JObj [("body", JObj [("raw", JStr "x")])])]).
Proof.
  apply nameless_non_folder_unchanged; reflexivity.
Defined.

(** C10 as stated fails for a folder: a nameless folder holding a
    ["Login - Success"] request with a raw body is changed by the walker. *)
Lemma nameless_folder_changed_counterexample :
  has_key "name" [("item", JArr [JObj [("name", JStr "Login - Success");
                                       ("request", JObj [("body", JObj [("raw", JStr "x")])])]])]
  = false /\
  update_item (JObj [("item", JArr [JObj [("name", JStr "Login - Success");
                                          ("request", JObj [("body", JObj [("raw", JStr "x")])])]])])
  <> Some (JObj [("item", JArr [JObj [("name", JStr "Login - Success");
                                      ("request", JObj [("body", JObj [("raw", JStr "x")])])]])]).
Proof.
  split; [reflexivity|]. vm_compute. discriminate.
Qed.

(** ** C6: a failed read or parse leaves the file alone *)

(** C6: For any [json.load] and [json.dump]: a missing or unreadable file
    ends the run with the I/O error, an undecodable one with the decode
    error, and in both cases the file keeps its contents; more generally
    the file only changes on a successful run, i.e. after the read, the
    parse and the whole mutation pass. *)
Theorem main_read_failure_keeps_file (text : Type)
    (load : text -> option json) (dump : json -> text) :
  main text load dump None = (IOError, None) /\
  (forall t, load t = None -> main text load dump (Some t) = (DecodeError, Some t)) /\
  (forall file, fst (main text load dump file) <> Success ->
                snd (main text load dump file) = file).
Proof.
  split; [reflexivity|]. split.
  - intros t Ht. unfold main. rewrite Ht. reflexivity.
  - intros [t|] Hf; unfold main in *; [|reflexivity].
    destruct (load t) as [c|]; [|reflexivity].
    destruct (transform c); [|reflexivity].
    simpl in Hf. congruence.
Qed.

Lemma main_read_failure_keeps_file_witness :
  (fun _ : string => @None json) "{ not json" = None /\
  main string (fun _ => None) (fun _ => "") (Some "{ not json")
  = (DecodeError, Some "{ not json").
Proof.
  split; [reflexivity|].
  apply (proj1 (proj2 (main_read_failure_keeps_file string (fun _ => None) (fun _ => "")))).
  reflexivity.
Defined.

(** ** C8: the two login items store the token *)

(** C8: Of the eight items of the inserted group, exactly the two logins
    ["Login as john.doe"] and ["Login as jane.smith"] carry the test
    script storing [data.token] as [auth_token]; the six others have no
    ["event"] at all. *)
Theorem seeded_group_token_scripts :
  length seeded_items = 8 /\
  map item_name (filter stores_auth_token seeded_items) =
    [Some (JStr "Login as john.doe"); Some (JStr "Login as jane.smith")] /\
  map (fun it => py_getitem it "event")
      (filter (fun it => negb (stores_auth_token it)) seeded_items) =
    [None; None; None; None; None; None].
Proof. vm_compute. split; [reflexivity|split; reflexivity]. Qed.

(** * Further properties of the script *)

(** ** Helpers *)

Lemma keys_dict_set_present k v kvs :
  has_key k kvs = true -> map fst (dict_set k v kvs) = map fst kvs.
Proof.
  induction kvs as [|[k' v'] rest IH]; simpl; [discriminate|].
  destruct (String.eqb k' k) eqn:E; simpl; [reflexivity|].
  intros H. f_equal. auto.
Qed.

Lemma keys_dict_set_absent k v kvs :
  has_key k kvs = false -> map fst (dict_set k v kvs) = (map fst kvs ++ [k])%list.
Proof.
  induction kvs as [|[k' v'] rest IH]; simpl; [reflexivity|].
  destruct (String.eqb k' k) eqn:E; simpl; [discriminate|].
  intros H. f_equal. auto.
Qed.

Lemma map_option_None f l x :
  In x l -> f x = None -> map_option f l = None.
Proof.
  induction l as [|y rest IH]; simpl; [contradiction|].
  intros [<- | Hin] Hx.
  - rewrite Hx. reflexivity.
  - destruct (f y); [|reflexivity]. rewrite (IH Hin Hx). reflexivity.
Qed.

(** What one branch of the dispatch does to a request dict: it stays a
    dict, only ["body"] and ["description"] may change, and within a dict
    body only ["raw"]; a body that was absent stays absent. *)
Lemma patch_request_frame lit descr r r' :
  patch_request lit descr (JObj r) = Some r' ->
  exists r'', r' = JObj r'' /\
    (forall k, k <> "body" -> k <> "description" -> assoc k r'' = assoc k r) /\
    (assoc "body" r = None -> assoc "body" r'' = None) /\
    (forall b, assoc "body" r = Some (JObj b) ->
       exists b', assoc "body" r'' = Some (JObj b') /\
                  forall k, k <> "raw" -> assoc k b' = assoc k b).
Proof.
  intros H. unfold patch_request in H. simpl in H.
  destruct (has_key "body" r) eqn:Eb.
  2:{ injection H as <-. exists r. split; [reflexivity|]. split; [reflexivity|].
      split; [tauto|]. intros b Hb. exists b. split; [exact Hb|reflexivity]. }
  destruct (assoc "body" r) as [b0|] eqn:Eab; [|discriminate].
  destruct (py_in "raw" b0) as [[|]|] eqn:Er; [|injection H as <-|discriminate].
  2:{ exists r. split; [reflexivity|]. split; [reflexivity|].
      split; [intros; congruence|]. intros b Hb. exists b. split; [congruence|reflexivity]. }
  destruct b0 as [| | | | |b0]; simpl in H; try discriminate.
  set (r1 := dict_set "body" (JObj (dict_set "raw" (JStr lit) b0)) r) in *.
  assert (Hr1 : (forall k, k <> "body" -> k <> "description" -> assoc k r1 = assoc k r) /\
                assoc "body" r1 = Some (JObj (dict_set "raw" (JStr lit) b0))).
  { split; [intros k Hk _; apply assoc_dict_set_neq; exact Hk|apply assoc_dict_set_eq]. }
  destruct Hr1 as [Hf Hbody].
  destruct descr as [d|]; simpl in H; injection H as <-.
  - exists (dict_set "description" (JStr d) r1). split; [reflexivity|].
    split; [|split].
    + intros k Hk Hk'. rewrite assoc_dict_set_neq by exact Hk'. auto.
    + intros Hn. discriminate.
    + intros b Hb. injection Hb as <-. exists (dict_set "raw" (JStr lit) b0).
      split; [rewrite assoc_dict_set_neq by discriminate; exact Hbody|].
      intros k Hk. apply assoc_dict_set_neq. exact Hk.
  - exists r1. split; [reflexivity|]. split; [|split].
    + exact Hf.
    + intros Hn. discriminate.
    + intros b Hb. injection Hb as <-. exists (dict_set "raw" (JStr lit) b0).
      split; [exact Hbody|]. intros k Hk. apply assoc_dict_set_neq. exact Hk.
Qed.

Lemma update_request_frame name r r' :
  update_request name (JObj r) = Some r' ->
  exists r'', r' = JObj r'' /\
    (forall k, k <> "body" -> k <> "description" -> assoc k r'' = assoc k r) /\
    (assoc "body" r = None -> assoc "body" r'' = None) /\
    (forall b, assoc "body" r = Some (JObj b) ->
       exists b', assoc "body" r'' = Some (JObj b') /\
                  forall k, k <> "raw" -> assoc k b' = assoc k b).
Proof.
  unfold update_request.
  repeat match goal with |- context [if ?c then _ else _] => destruct c end;
    try apply patch_request_frame.
  intros H. injection H as <-. exists r. split; [reflexivity|]. split; [reflexivity|].
  split; [tauto|]. intros b Hb. exists b. split; [exact Hb|reflexivity].
Qed.

(** The four target names select one fixed branch each. *)
Lemma update_request_target n r :
  In n target_names ->
  exists lit descr, update_request (JStr n) r = patch_request lit descr r.
Proof.
  simpl. intros Hn.
  repeat destruct Hn as [<- | Hn]; try contradiction; eexists _, _; reflexivity.
Qed.

(** [transform] run on its own result: the same as C5, kept as a helper. *)
Lemma transform_again d d1 :
  transform d = Some d1 ->
  exists l1,
    top_items d1 = Some (seeded_data_folder :: l1) /\
    transform d1 = Some (JObj (dict_set "item" (JArr (seeded_data_folder :: seeded_data_folder :: l1))
                               (match d1 with JObj kvs1 => kvs1 | _ => [] end))).
Proof.
  intros Ht.
  destruct (transform_spec _ _ Ht) as (kvs & l & l' & _ & _ & H2 & -> & Hl').
  assert (Hfix : map_option update_item l' = Some l').
  { apply map_option_Forall2. eapply (Forall2_fixed (fun _ => True)); [|exact H2].
    apply Forall_forall. intros x _ y. apply (proj1 (walker_idem x)). }
  exists l'. split; [exact Hl'|].
  unfold transform, py_getitem. rewrite assoc_dict_set_eq.
  cbn [update_requests map_option].
  rewrite seeded_folder_passes_unchanged, Hfix. unfold py_setitem.
  rewrite dict_set_dict_set. reflexivity.
Qed.

Lemma wf_item_obj kvs :
  wf_item (JObj kvs) =
  if has_key "item" kvs then
    match assoc "item" kvs with Some (JArr sub) => forallb wf_item sub | _ => false end
  else if has_key "request" kvs then
    match assoc "request" kvs with
    | Some (JObj r) =>
        match assoc "body" r with None | Some (JObj _) => true | Some _ => false end
    | _ => false
    end
  else true.
Proof.
  cbn [wf_item]. destruct (has_key "item" kvs); [|reflexivity].
  rewrite test_at_spec. destruct (assoc "item" kvs) as [[]|]; reflexivity.
Qed.

Lemma wf_item_preserved (j : json) :
  (wf_item j = true -> forall j', update_item j = Some j' -> wf_item j' = true) /\
  (forall sub, j = JArr sub -> forallb wf_item sub = true ->
     forall j', update_requests j = Some j' ->
       exists sub', j' = JArr sub' /\ forallb wf_item sub' = true).
Proof.
  induction j as [| | | s | l IH | kvs IH] using json_deep_ind;
    split; try (intros sub Hs; discriminate); try (simpl; discriminate).
  - intros sub Hs Hw j' Hu. injection Hs as <-. simpl in Hu.
    destruct (map_option update_item l) as [l'|] eqn:Em; [|discriminate].
    injection Hu as <-. exists l'. split; [reflexivity|].
    apply map_option_Forall2 in Em.
    induction Em as [|x y l l' Hxy Hr IHr]; [reflexivity|].
    simpl in Hw |- *. apply andb_true_iff in Hw as [Hx Hl].
    inversion IH as [|? ? IHx IHl]; subst.
    rewrite (proj1 IHx Hx y Hxy). simpl. apply IHr; assumption.
  - intros Hw j' Hu. rewrite wf_item_obj in Hw.
    destruct (has_key "item" kvs) eqn:Ei.
    + rewrite update_item_group in Hu by exact Ei.
      destruct (assoc "item" kvs) as [v|] eqn:Ev; [|discriminate].
      destruct v as [| | | |sub|]; try discriminate.
      destruct (update_requests (JArr sub)) as [v'|] eqn:Ev'; [|discriminate].
      injection Hu as <-. apply assoc_In in Ev. rewrite Forall_forall in IH.
      destruct (proj2 (IH _ Ev) sub eq_refl Hw v' Ev') as (sub' & -> & Hw').
      rewrite wf_item_obj, has_key_dict_set, eqb_refl', assoc_dict_set_eq. exact Hw'.
    + destruct (has_key "request" kvs) eqn:Eq.
      * rewrite update_item_request in Hu by assumption.
        destruct (assoc "request" kvs) as [[| | | | |r]|] eqn:Er; try discriminate.
        destruct (update_request (dict_get kvs "name" (JStr "")) (JObj r)) as [r'|] eqn:Eu;
          [|discriminate].
        injection Hu as <-.
        destruct (update_request_frame _ _ _ Eu) as (r'' & -> & _ & Hnone & Hbody).
        rewrite wf_item_obj, !has_key_dict_set, Ei. simpl.
        rewrite assoc_dict_set_eq.
        destruct (assoc "body" r) as [[| | | | |b]|] eqn:Eb; try discriminate.
        -- destruct (Hbody b eq_refl) as (b' & -> & _). reflexivity.
        -- rewrite Hnone; reflexivity.
      * cbn [update_item] in Hu. rewrite Ei, Eq in Hu. injection Hu as <-.
        rewrite wf_item_obj, Ei, Eq. reflexivity.
Qed.

(** ** Extra properties *)

(** X1: Running [update_requests] again on what it returned changes
    nothing and raises nothing. *)
Theorem update_requests_idempotent items items' :
  update_requests items = Some items' -> update_requests items' = Some items'.
Proof. apply (proj2 (walker_idem items)). Qed.

Lemma update_requests_idempotent_witness :
  exists items',
    update_requests (JArr [JObj [("name", JStr "Login - Invalid Credentials");
                                 ("request", JObj [("body", JObj [("raw", JStr "")])])]])
    = Some items' /\ update_requests items' = Some items'.
Proof.
  eexists. split; [reflexivity|].
  apply (update_requests_idempotent
           (JArr [JObj [("name", JStr "Login - Invalid Credentials");
                        ("request", JObj [("body", JObj [("raw", JStr "")])])]])).
  reflexivity.
Defined.

(** X2: The walker keeps every item's keys in their order and every field
    other than ["item"] and ["request"] (name, events, responses); an item
    that is not a dict is returned as it was. *)
Theorem update_item_keeps_fields j j' :
  update_item j = Some j' ->
  match j with
  | JObj kvs =>
      exists kvs', j' = JObj kvs' /\ map fst kvs' = map fst kvs /\
        (forall k, k <> "item" -> k <> "request" -> assoc k kvs' = assoc k kvs)
  | _ => j' = j
  end.
Proof.
  intros Hu. destruct j as [| | |s|l|kvs]; simpl in Hu; try discriminate.
  - destruct (str_item_ok s); congruence.
  - destruct (existsb (is_str "item") l); [discriminate|].
    destruct (existsb (is_str "request") l); congruence.
  - fold update_item update_requests in Hu.
    destruct (has_key "item" kvs) eqn:Ei.
    + rewrite update_at_spec in Hu.
      destruct (assoc "item" kvs); [|discriminate].
      destruct (update_requests j); [|discriminate]. injection Hu as <-.
      eexists. split; [reflexivity|]. split; [apply keys_dict_set_present; exact Ei|].
      intros k Hk _. apply assoc_dict_set_neq. exact Hk.
    + destruct (has_key "request" kvs) eqn:Eq; [|injection Hu as <-; eauto].
      unfold py_getitem, py_setitem in Hu.
      destruct (assoc "request" kvs); [|discriminate].
      destruct (update_request _ _); [|discriminate]. injection Hu as <-.
      eexists. split; [reflexivity|]. split; [apply keys_dict_set_present; exact Eq|].
      intros k _ Hk. apply assoc_dict_set_neq. exact Hk.
Qed.

Lemma update_item_keeps_fields_witness :
  exists j',
    update_item (JObj [("name", JStr "Login - Success"); ("event", JArr []);
                       ("request", JObj [("body", JObj [("raw", JStr "")])]);
                       ("response", JArr [])]) = Some j' /\
    exists kvs', j' = JObj kvs' /\
      map fst kvs' = map fst [("name", JStr "Login - Success"); ("event", JArr []);
                              ("request", JObj [("body", JObj [("raw", JStr "")])]);
                              ("response", JArr [])] /\
      (forall k, k <> "item" -> k <> "request" ->
         assoc k kvs' = assoc k [("name", JStr "Login - Success"); ("event", JArr []);
                                 ("request", JObj [("body", JObj [("raw", JStr "")])]);
                                 ("response", JArr [])]).
Proof.
  eexists. split; [reflexivity|].
  exact (update_item_keeps_fields
           (JObj [("name", JStr "Login - Success"); ("event", JArr []);
                  ("request", JObj [("body", JObj [("raw", JStr "")])]);
                  ("response", JArr [])]) _ eq_refl).
Defined.

(** X3: On a request item with a dict descriptor, whatever its name, the
    walker changes only the descriptor's ["description"] and, inside a
    dict body, ["raw"]: the method, headers, URL and the other body fields
    stay, a request without a body still has none, and a body that is
    present but not a dict leaves the whole descriptor as it was. *)
Theorem request_walk_frame kvs r j' :
  is_request_item kvs = true ->
  assoc "request" kvs = Some (JObj r) ->
  update_item (JObj kvs) = Some j' ->
  exists kvs' r',
    j' = JObj kvs' /\
    (forall k, k <> "request" -> assoc k kvs' = assoc k kvs) /\
    assoc "request" kvs' = Some (JObj r') /\
    (forall k, k <> "body" -> k <> "description" -> assoc k r' = assoc k r) /\
    (assoc "body" r = None -> assoc "body" r' = None) /\
    (forall b, assoc "body" r = Some (JObj b) ->
       exists b', assoc "body" r' = Some (JObj b') /\
                  forall k, k <> "raw" -> assoc k b' = assoc k b) /\
    (forall b, assoc "body" r = Some b -> (forall bk, b <> JObj bk) -> r' = r).
Proof.
  intros Hr Hq Hu. destruct (is_request_item_keys _ Hr) as [Hi Hq'].
  rewrite update_item_request in Hu by assumption. rewrite Hq in Hu.
  destruct (update_request _ (JObj r)) as [r1|] eqn:Eu; [|discriminate].
  injection Hu as <-.
  destruct (update_request_frame _ _ _ Eu) as (r' & -> & Hf & Hn & Hb).
  exists (dict_set "request" (JObj r') kvs), r'. split; [reflexivity|].
  split; [intros k Hk; apply assoc_dict_set_neq; exact Hk|].
  split; [apply assoc_dict_set_eq|]. split; [exact Hf|]. split; [exact Hn|].
  split; [exact Hb|].
  intros b Hb0 Hnd. pose proof (update_request_nondict_body _ _ _ _ Eu Hb0 Hnd) as E.
  congruence.
Qed.

Lemma request_walk_frame_witness :
  exists j',
    update_item (JObj [("name", JStr "Register User - Duplicate ID");
                       ("request", JObj [("method", JStr "POST");
                                         ("body", JArr [JStr "x"])])])
    = Some j' /\
    exists kvs' r',
      j' = JObj kvs' /\
      (forall k, k <> "request" ->
         assoc k kvs' = assoc k [("name", JStr "Register User - Duplicate ID");
                                 ("request", JObj [("method", JStr "POST");
                                                   ("body", JArr [JStr "x"])])]) /\
      assoc "request" kvs' = Some (JObj r') /\
      (forall k, k <> "body" -> k <> "description" ->
         assoc k r' = assoc k [("method", JStr "POST"); ("body", JArr [JStr "x"])]) /\
      (assoc "body" [("method", JStr "POST"); ("body", JArr [JStr "x"])] = None ->
       assoc "body" r' = None) /\
      (forall b, assoc "body" [("method", JStr "POST"); ("body", JArr [JStr "x"])]
                 = Some (JObj b) ->
         exists b', assoc "body" r' = Some (JObj b') /\
                    forall k, k <> "raw" -> assoc k b' = assoc k b) /\
      (forall b, assoc "body" [("method", JStr "POST"); ("body", JArr [JStr "x"])] = Some b ->
         (forall bk, b <> JObj bk) ->
         r' = [("method", JStr "POST"); ("body", JArr [JStr "x"])]).
Proof.
  eexists. split; [reflexivity|].
  apply (request_walk_frame
           [("name", JStr "Register User - Duplicate ID");
            ("request", JObj [("method", JStr "POST"); ("body", JArr [JStr "x"])])]);
    reflexivity.
Defined.

(** X4: A request item named one of the four targets, with a dict
    descriptor, makes the walker raise exactly when the descriptor has a
    ["body"] on which [`'raw' in body`] raises (null, a number, a
    boolean), or for which that test is true while the body is not a dict
    (a list holding ["raw"] or a string containing "raw"), so that the
    assignment [body['raw'] = ...] raises. *)
Theorem target_request_raises_iff kvs n r :
  is_request_item kvs = true ->
  assoc "name" kvs = Some (JStr n) ->
  In n target_names ->
  assoc "request" kvs = Some (JObj r) ->
  update_item (JObj kvs) = None <->
  exists b, assoc "body" r = Some b /\
    (py_in "raw" b = None \/ (py_in "raw" b = Some true /\ forall bk, b <> JObj bk)).
Proof.
  intros Hr Hn Ht Hq. destruct (is_request_item_keys _ Hr) as [Hi Hq'].
  rewrite update_item_request by assumption. rewrite Hq.
  unfold dict_get. rewrite Hn.
  destruct (update_request_target n (JObj r) Ht) as (lit & descr & ->).
  unfold patch_request; simpl.
  destruct (has_key "body" r) eqn:Eb.
  - destruct (assoc "body" r) as [b|] eqn:Eab;
      [|apply has_key_assoc in Eb as [? ?]; congruence].
    destruct (py_in "raw" b) as [[|]|] eqn:Er.
    + destruct b as [| | | | |bk]; simpl.
      * split; [intros _|reflexivity]. eexists; split; [reflexivity|]. right. split; [assumption|congruence].
      * split; [intros _|reflexivity]. eexists; split; [reflexivity|]. right. split; [assumption|congruence].
      * split; [intros _|reflexivity]. eexists; split; [reflexivity|]. right. split; [assumption|congruence].
      * split; [intros _|reflexivity]. eexists; split; [reflexivity|]. right. split; [assumption|congruence].
      * split; [intros _|reflexivity]. eexists; split; [reflexivity|]. right. split; [assumption|congruence].
      * split; [destruct descr; discriminate|].
        intros (b & Hb & [Hn' | [_ Hne]]); injection Hb as <-; [congruence|].
        destruct (Hne bk eq_refl).
    + split; [discriminate|]. intros (b' & Hb & [Hn' | [Hy _]]); injection Hb as <-; congruence.
    + split; [intros _|reflexivity]. eexists; split; [reflexivity|]. left; assumption.
  - split; [discriminate|]. intros (b & Hb & _).
    assert (has_key "body" r = true) by (apply has_key_assoc; eauto). congruence.
Qed.

Lemma target_request_raises_iff_witness :
  update_item (JObj [("name", JStr "Login - Success");
                     ("request", JObj [("body", JNull)])]) = None /\
  exists b, assoc "body" [("body", JNull)] = Some b /\
    (py_in "raw" b = None \/ (py_in "raw" b = Some true /\ forall bk, b <> JObj bk)).
Proof.
  split; [reflexivity|].
  apply (target_request_raises_iff [("name", JStr "Login - Success");
                                    ("request", JObj [("body", JNull)])] "Login - Success");
    try reflexivity.
  simpl. tauto.
Defined.

(** X5: The transformation only completes on a dict whose ["item"] is a
    list: a missing ["item"] raises KeyError, and a dict, string or other
    value there fails at [update_requests] or at [.insert]. *)
Theorem transform_needs_item_list d d' :
  transform d = Some d' ->
  exists kvs l, d = JObj kvs /\ assoc "item" kvs = Some (JArr l).
Proof.
  intros Ht. destruct (transform_spec _ _ Ht) as (kvs & l & l' & -> & Hl & _).
  exists kvs, l. split; [reflexivity|].
  unfold top_items in Hl. simpl in Hl.
  destruct (assoc "item" kvs) as [[| | | | |]|]; congruence.
Qed.

Lemma transform_needs_item_list_witness :
  transform (JObj [("item", JObj [("a", JNull)])]) = None /\
  exists d', transform (JObj [("info", JNull); ("item", JArr [])]) = Some d' /\
    exists kvs l, JObj [("info", JNull); ("item", JArr [])] = JObj kvs /\
                  assoc "item" kvs = Some (JArr l).
Proof.
  split; [reflexivity|]. eexists. split; [reflexivity|].
  eapply (transform_needs_item_list (JObj [("info", JNull); ("item", JArr [])])).
  reflexivity.
Defined.

(** X6: The transformation keeps the document's top-level keys in their
    order and every top-level field other than ["item"] (info, variables,
    auth) as it was. *)
Theorem transform_keeps_top_fields d d' :
  transform d = Some d' ->
  exists kvs kvs', d = JObj kvs /\ d' = JObj kvs' /\
    map fst kvs' = map fst kvs /\
    (forall k, k <> "item" -> assoc k kvs' = assoc k kvs).
Proof.
  intros Ht. destruct (transform_spec _ _ Ht) as (kvs & l & l' & -> & Hl & _ & -> & _).
  eexists _, _. split; [reflexivity|]. split; [reflexivity|].
  split.
  - apply keys_dict_set_present. apply has_key_assoc.
    unfold top_items in Hl. simpl in Hl.
    destruct (assoc "item" kvs); [eauto|discriminate].
  - intros k Hk. apply assoc_dict_set_neq. exact Hk.
Qed.

Lemma transform_keeps_top_fields_witness :
  exists d',
    transform (JObj [("info", JStr "i"); ("item", JArr []); ("variable", JArr [])]) = Some d' /\
    exists kvs kvs', JObj [("info", JStr "i"); ("item", JArr []); ("variable", JArr [])] = JObj kvs /\
      d' = JObj kvs' /\ map fst kvs' = map fst kvs /\
      (forall k, k <> "item" -> assoc k kvs' = assoc k kvs).
Proof.
  eexists. split; [reflexivity|].
  apply transform_keeps_top_fields. reflexivity.
Defined.

(** X7: The transformation keeps documents of the data model in the data
    model: its result can be transformed again without error. *)
Theorem transform_preserves_wf d d' :
  wf_doc d = true -> transform d = Some d' -> wf_doc d' = true.
Proof.
  unfold wf_doc. intros Hw Ht.
  destruct (transform_spec _ _ Ht) as (kvs & l & l' & -> & Hl & H2 & -> & Hl').
  rewrite Hl in Hw. rewrite Hl'.
  change (wf_item seeded_data_folder && forallb wf_item l' = true).
  apply andb_true_iff. split; [vm_compute; reflexivity|].
  clear Ht Hl Hl'. revert Hw. induction H2 as [|x y l l' Hxy Hr IHr]; intros Hw; [reflexivity|].
  simpl in Hw |- *. apply andb_true_iff in Hw as [Hx Hw].
  rewrite (proj1 (wf_item_preserved x) Hx y Hxy). simpl. apply IHr; assumption.
Qed.

Lemma transform_preserves_wf_witness :
  exists d',
    wf_doc (JObj [("item", JArr [JObj [("name", JStr "Login - Success");
                                       ("request", JObj [("body", JObj [("raw", JStr "")])])]])])
    = true /\
    transform (JObj [("item", JArr [JObj [("name", JStr "Login - Success");
                                          ("request", JObj [("body", JObj [("raw", JStr "")])])]])])
    = Some d' /\ wf_doc d' = true.
Proof.
  eexists. split; [reflexivity|]. split; [reflexivity|].
  apply (transform_preserves_wf
           (JObj [("item", JArr [JObj [("name", JStr "Login - Success");
                                       ("request", JObj [("body", JObj [("raw", JStr "")])])]])]));
    reflexivity.
Defined.

(** X8: Two runs of the script on the same file, with a [json.load] that
    reads back what [json.dump] wrote: if the first run succeeds, the
    second succeeds too, and the file then holds a document starting with
    two ["Seeded Data Tests"] groups followed by the first run's items. *)
Theorem main_run_twice (text : Type) (load : text -> option json) (dump : json -> text)
    t c c1 :
  (forall x, load (dump x) = Some x) ->
  load t = Some c ->
  transform c = Some c1 ->
  main text load dump (Some t) = (Success, Some (dump c1)) /\
  exists c2 l1,
    main text load dump (Some (dump c1)) = (Success, Some (dump c2)) /\
    top_items c1 = Some (seeded_data_folder :: l1) /\
    top_items c2 = Some (seeded_data_folder :: seeded_data_folder :: l1).
Proof.
  intros Hrt Hl Ht. split; [unfold main; rewrite Hl, Ht; reflexivity|].
  destruct (transform_again _ _ Ht) as (l1 & Hl1 & Ht2).
  eexists _, l1. split; [unfold main; rewrite Hrt, Ht2; reflexivity|].
  split; [exact Hl1|].
  unfold top_items; simpl. rewrite assoc_dict_set_eq. reflexivity.
Qed.

Lemma main_run_twice_witness :
  exists c1,
    transform (JObj [("item", JArr [])]) = Some c1 /\
    main json (fun x => Some x) (fun x => x) (Some (JObj [("item", JArr [])])) = (Success, Some c1) /\
    exists c2 l1,
      main json (fun x => Some x) (fun x => x) (Some c1) = (Success, Some c2) /\
      top_items c1 = Some (seeded_data_folder :: l1) /\
      top_items c2 = Some (seeded_data_folder :: seeded_data_folder :: l1).
Proof.
  eexists. split; [reflexivity|].
  eapply (main_run_twice json (fun x => Some x) (fun x => x)); reflexivity.
Defined.

(** X9: For a ["Register User - Duplicate ID"] request with a dict body
    holding ["raw"], the walker keeps the descriptor's keys in order and
    appends ["description"] at the end when it was absent (Python dicts
    keep insertion order, and [json.dump] writes it). *)
Theorem duplicate_description_key_order kvs r b :
  is_request_item kvs = true ->
  assoc "name" kvs = Some (JStr "Register User - Duplicate ID") ->
  assoc "request" kvs = Some (JObj r) ->
  assoc "body" r = Some (JObj b) ->
  has_key "raw" b = true ->
  exists kvs' r',
    update_item (JObj kvs) = Some (JObj kvs') /\
    assoc "request" kvs' = Some (JObj r') /\
    map fst r' = (map fst r ++ (if has_key "description" r then [] else ["description"]))%list.
Proof.
  intros Hr Hn Hq Hb Hraw. destruct (is_request_item_keys _ Hr) as [Hi Hq'].
  rewrite update_item_request by assumption. rewrite Hq.
  unfold dict_get. rewrite Hn.
  rewrite update_request_register_duplicate, (patch_request_hit _ _ _ _ Hb Hraw).
  eexists _, _. split; [reflexivity|]. split; [apply assoc_dict_set_eq|].
  assert (Hkb : has_key "body" r = true) by (apply has_key_assoc; eauto).
  destruct (has_key "description" r) eqn:Ed.
  - rewrite keys_dict_set_present, keys_dict_set_present, app_nil_r; auto.
    rewrite has_key_dict_set. rewrite Ed. apply orb_true_r.
  - rewrite keys_dict_set_absent, keys_dict_set_present; auto.
    rewrite has_key_dict_set, Ed. reflexivity.
Qed.

Lemma duplicate_description_key_order_witness :
  exists kvs' r',
    update_item (JObj [("name", JStr "Register User - Duplicate ID");
                       ("request", JObj [("method", JStr "POST");
                                         ("body", JObj [("raw", JStr "")]);
                                         ("url", JStr "u")])])
    = Some (JObj kvs') /\
    assoc "request" kvs' = Some (JObj r') /\
    map fst r' = ["method"; "body"; "url"; "description"].
Proof.
  apply (duplicate_description_key_order
           [("name", JStr "Register User - Duplicate ID");
            ("request", JObj [("method", JStr "POST");
                              ("body", JObj [("raw", JStr "")]);
                              ("url", JStr "u")])]
           [("method", JStr "POST"); ("body", JObj [("raw", JStr "")]); ("url", JStr "u")]
           [("raw", JStr "")]); reflexivity.
Defined.

(** X10: A list of items that holds null, a boolean, a number, or a string
    containing "item" or "request" makes the walk raise TypeError, wherever
    in the list it sits. *)
Theorem bad_item_raises l x :
  In x l ->
  (x = JNull \/ (exists b, x = JBool b) \/ (exists n, x = JNum n) \/
   (exists s, x = JStr s /\ (str_contains "item" s || str_contains "request" s) = true)) ->
  update_requests (JArr l) = None.
Proof.
  intros Hin Hx. simpl.
  rewrite (map_option_None update_item l x Hin); [reflexivity|].
  destruct Hx as [-> | [[b ->] | [[n ->] | (s & -> & Hs)]]]; try reflexivity.
  simpl. unfold str_item_ok.
  destruct (str_contains "item" s), (str_contains "request" s); try reflexivity.
  discriminate.
Qed.

Lemma bad_item_raises_witness :
  update_requests (JArr [JObj [("name", JStr "a"); ("request", JObj [])];
                         JStr "line items"]) = None.
Proof.
  apply (bad_item_raises _ (JStr "line items")).
  - simpl. tauto.
  - right; right; right. exists "line items". split; reflexivity.
Defined.
